(** * System Prompt Influence Analyzer (app.py): a shallow embedding

    The program is a Streamlit form.  It reads a credential and two uploaded
    text files, builds one prompt from a fixed template, sends it in a single
    request to the Anthropic messages API and renders the answer.

    The embedding keeps the shape of the Python source:
    - a Python [str] is a list of Unicode code points, [bytes] a list of
      [Byte.byte];
    - everything the script does to the outside (Streamlit rendering and the
      HTTPS call) is recorded in a [World]; the external service is an oracle
      that may answer differently on every call;
    - statements run in a small state-and-exception monad with Python's
      three ways of leaving a block: falling through, [return], and a raised
      exception. *)

From Stdlib Require Import NArith Strings.Ascii Strings.String Strings.Byte.
From Stdlib Require Import Numbers.DecimalString Numbers.HexadecimalString.
From stdpp Require Import base option list strings gmap.

Local Open Scope N_scope.

(** ** Python values *)

(** A Python [str]: a sequence of code points. *)
Abbreviation str := (list N).

(** A Python [bytes] object. *)
Abbreviation bytes := (list Byte.byte).

(** String literals of the source.  The literals of app.py are pure ASCII, so
    each character is its own code point. *)
Definition lit (s : string) : str :=
  List.map N_of_ascii (list_ascii_of_string s).

(** [bool(s)] for a string: non-empty. *)
Definition str_truthy (s : str) : bool :=
  match s with
  | [] => false
  | _ :: _ => true
  end.

(** [needle in hay] on strings: [needle] occurs as a contiguous run. *)
Fixpoint starts_with (needle hay : str) : bool :=
  match needle, hay with
  | [], _ => true
  | _ :: _, [] => false
  | a :: needle', b :: hay' => (a =? b) && starts_with needle' hay'
  end.

Fixpoint str_contains (needle hay : str) : bool :=
  starts_with needle hay ||
  match hay with
  | [] => false
  | _ :: hay' => str_contains needle hay'
  end.

(** The same as a proposition: [hay] is [needle] with something before and
    something after, neither of which touches [needle]. *)
Definition verbatim_in (needle hay : str) : Prop :=
  exists before after : str, hay = before ++ needle ++ after.

(** ** Exceptions

    The values of this type are instances of Python's [Exception] class, which
    is what the [except Exception] clauses of the source catch. *)
Inductive PyException : Type :=
  | UnicodeDecodeError (object : bytes) (start stop : nat) (reason : string)
  | IndexError (message : string)
  | AttributeError (message : string)
  | KeyError (key : string)
  | APIError (class_name : string) (message : str).

Definition decimal (n : nat) : string :=
  DecimalString.NilZero.string_of_uint (Nat.to_uint n).

Definition hex2 (b : Byte.byte) : string :=
  let n := Byte.to_N b in
  let digits := HexadecimalString.NilZero.string_of_uint (N.to_hex_uint n) in
  if n <? 16 then ("0" ++ digits)%string else digits.

(** [str(e)], as interpolated by [f"...{e}"]. *)
Definition exc_str (e : PyException) : str :=
  match e with
  | UnicodeDecodeError object start stop reason =>
      match List.nth_error object start with
      | Some b =>
          if Nat.eqb stop (S start) then
            lit ("'utf-8' codec can't decode byte 0x" ++ hex2 b ++
                 " in position " ++ decimal start ++ ": " ++ reason)
          else
            lit ("'utf-8' codec can't decode bytes in position " ++
                 decimal start ++ "-" ++ decimal (Nat.pred stop) ++ ": " ++ reason)
      | None =>
          lit ("'utf-8' codec can't decode bytes in position " ++
               decimal start ++ "-" ++ decimal (Nat.pred stop) ++ ": " ++ reason)
      end
  | IndexError message => lit message
  | AttributeError message => lit message
  | KeyError key => lit ("'" ++ key ++ "'")
  | APIError _ message => message
  end.

(** ** [bytes.decode('utf-8')]

    The strict decoder of the Python runtime: shortest-form sequences only, no
    surrogates, nothing above U+10FFFF.  The error carries the offending byte
    range and the runtime's reason text. *)
Definition is_continuation (c : N) : bool := (0x80 <=? c) && (c <? 0xC0).

(** Second byte of a three-byte sequence led by [c0]. *)
Definition second_of_3_ok (c0 c1 : N) : bool :=
  is_continuation c1 &&
  negb (if c1 <? 0xA0 then c0 =? 0xE0 else c0 =? 0xED).

(** Second byte of a four-byte sequence led by [c0]. *)
Definition second_of_4_ok (c0 c1 : N) : bool :=
  is_continuation c1 &&
  negb (if c1 <? 0x90 then c0 =? 0xF0 else c0 =? 0xF4).

Definition decode_failure {A} (object : bytes) (start stop : nat)
    (reason : string) : A + PyException :=
  inr (UnicodeDecodeError object start stop reason).

Definition push_char {E} (c : N) (r : str + E) : str + E :=
  match r with
  | inl s => inl (c :: s)
  | inr e => inr e
  end.

Fixpoint utf8_decode (object : bytes) (pos : nat) (rest : bytes)
    : str + PyException :=
  let total := length object in
  match rest with
  | [] => inl []
  | b0 :: t0 =>
      let c0 := Byte.to_N b0 in
      if c0 <? 0x80 then push_char c0 (utf8_decode object (S pos) t0)
      else if c0 <? 0xC2 then
        decode_failure object pos (S pos) "invalid start byte"
      else if c0 <? 0xE0 then
        match t0 with
        | [] => decode_failure object pos total "unexpected end of data"
        | b1 :: t1 =>
            let c1 := Byte.to_N b1 in
            if is_continuation c1 then
              push_char (N.shiftl c0 6 + c1 - (N.shiftl 0xC0 6 + 0x80))
                        (utf8_decode object (pos + 2)%nat t1)
            else decode_failure object pos (pos + 1)%nat "invalid continuation byte"
        end
      else if c0 <? 0xF0 then
        match t0 with
        | [] => decode_failure object pos total "unexpected end of data"
        | b1 :: t1 =>
            let c1 := Byte.to_N b1 in
            if negb (second_of_3_ok c0 c1) then
              decode_failure object pos (pos + 1)%nat "invalid continuation byte"
            else
              match t1 with
              | [] => decode_failure object pos total "unexpected end of data"
              | b2 :: t2 =>
                  let c2 := Byte.to_N b2 in
                  if is_continuation c2 then
                    push_char (N.shiftl c0 12 + N.shiftl c1 6 + c2
                               - (N.shiftl 0xE0 12 + N.shiftl 0x80 6 + 0x80))
                              (utf8_decode object (pos + 3)%nat t2)
                  else
                    decode_failure object pos (pos + 2)%nat "invalid continuation byte"
              end
        end
      else if c0 <? 0xF5 then
        match t0 with
        | [] => decode_failure object pos total "unexpected end of data"
        | b1 :: t1 =>
            let c1 := Byte.to_N b1 in
            if negb (second_of_4_ok c0 c1) then
              decode_failure object pos (pos + 1)%nat "invalid continuation byte"
            else
              match t1 with
              | [] => decode_failure object pos total "unexpected end of data"
              | b2 :: t2 =>
                  let c2 := Byte.to_N b2 in
                  if negb (is_continuation c2) then
                    decode_failure object pos (pos + 2)%nat "invalid continuation byte"
                  else
                    match t2 with
                    | [] => decode_failure object pos total "unexpected end of data"
                    | b3 :: t3 =>
                        let c3 := Byte.to_N b3 in
                        if is_continuation c3 then
                          push_char (N.shiftl c0 18 + N.shiftl c1 12 + N.shiftl c2 6 + c3
                                     - (N.shiftl 0xF0 18 + N.shiftl 0x80 12
                                        + N.shiftl 0x80 6 + 0x80))
                                    (utf8_decode object (pos + 4)%nat t3)
                        else
                          decode_failure object pos (pos + 3)%nat
                                         "invalid continuation byte"
                    end
              end
        end
      else decode_failure object pos (S pos) "invalid start byte"
  end.

Definition bytes_decode_utf8 (b : bytes) : str + PyException :=
  utf8_decode b 0%nat b.

(** ** The outside world *)

(** An entry of [st.file_uploader]'s result: [UploadedFile] wraps the bytes of
    the upload.  The class defines neither [__bool__] nor [__len__], so an
    instance is truthy whatever it holds. *)
Record UploadedFile : Type := { name : string; getvalue : bytes }.

(** What the page shows, in the order the script renders it. *)
Inductive UIEvent : Type :=
  | Title (body : str)
  | Header (body : str)
  | Subheader (body : str)
  | Warning (body : str)
  | Error (body : str)
  | Info (body : str)
  | Write (body : str)
  | TextArea (label value : str) (height : N)
  | TextInput (label : string) (type : string)
  | FileUploader (label : string) (type : list string)
  | Button (label : string)
  | SidebarHeader (body : str)
  | SidebarMarkdown (body : str).

(** One entry of the [messages] argument. *)
Record MessageParam : Type := { role : str; content : str }.

(** One call of [client.messages.create]: its arguments, and the key the
    client was constructed with.  What the SDK makes of a call (headers, the
    base URL and tokens it configures for itself, transport retries) is not
    code of app.py and lies behind the service's reaction. *)
Record Request : Type := {
  req_api_key : option str;
  req_model : str;
  req_max_tokens : N;
  req_messages : list MessageParam
}.

(** The response object.  Only a [TextBlock] has a [text] attribute. *)
Inductive ContentBlock : Type :=
  | TextBlock (text : str)
  | ToolUseBlock (id tool : str).

Record Message : Type := { msg_content : list ContentBlock; msg_model : str }.

Inductive ServiceOutcome : Type :=
  | Responds (response : Message)
  | Fails (e : PyException).

(** What the user did on the page before this run of the script; Streamlit
    identifies a widget by its label. *)
Record User : Type := {
  typed : string -> str;
  uploaded : string -> option UploadedFile;
  clicked : string -> bool
}.

(** What a run of the script can read but not change.  [environ] is what
    [os.getenv] in app.py sees.  The service is not assumed deterministic:
    [service n r] is the outcome of the call [r] when it is the [n]-th one
    made, and stands for everything behind [messages.create], the SDK's own
    configuration included. *)
Record Env : Type := {
  environ : gmap string str;
  service : nat -> Request -> ServiceOutcome;
  user : User
}.

(** What a run leaves behind: the rendered page and the requests sent. *)
Record World : Type := { ui : list UIEvent; requests : list Request }.

Definition render (e : UIEvent) (w : World) : World :=
  {| ui := ui w ++ [e]; requests := requests w |}.

Definition send (r : Request) (w : World) : World :=
  {| ui := ui w; requests := requests w ++ [r] |}.

(** What a run added to the page, and the requests it issued. *)
Definition rendered (before after : World) : list UIEvent :=
  drop (length (ui before)) (ui after).

Definition issued (before after : World) : list Request :=
  drop (length (requests before)) (requests after).

(** ** Statements

    [Py R A]: a block inside a function returning [R]; the block itself
    yields an [A] when control falls through its end. *)
Inductive Completion (R A : Type) : Type :=
  | Normal (a : A)
  | Return (r : R)
  | Raise (e : PyException).
Arguments Normal {R A} a.
Arguments Return {R A} r.
Arguments Raise {R A} e.

Definition Py (R A : Type) : Type := World -> Completion R A * World.

Definition pure {R A} (a : A) : Py R A := fun w => (Normal a, w).

Definition bind {R A B} (m : Py R A) (k : A -> Py R B) : Py R B :=
  fun w =>
    match m w with
    | (Normal a, w') => k a w'
    | (Return r, w') => (Return r, w')
    | (Raise e, w') => (Raise e, w')
    end.

Definition py_return {R A} (r : R) : Py R A := fun w => (Return r, w).

Definition raise {R A} (e : PyException) : Py R A := fun w => (Raise e, w).

(** [try: body except Exception as e: handler e]. *)
Definition try_except {R A} (body : Py R A) (handler : PyException -> Py R A)
    : Py R A :=
  fun w =>
    match body w with
    | (Raise e, w') => handler e w'
    | done => done
    end.

(** Calling a function whose body is [body]: a [return] ends the call, falling
    off the end returns [None] (here [none]), an exception goes on to the
    caller. *)
Definition call {R R' : Type} (none : R) (body : Py R unit) : Py R' R :=
  fun w =>
    match body w with
    | (Normal _, w') => (Normal none, w')
    | (Return r, w') => (Normal r, w')
    | (Raise e, w') => (Raise e, w')
    end.

Declare Scope py_scope.
Delimit Scope py_scope with py.
Notation "'let*' x ':=' m 'in' k" := (bind m (fun x => k))
  (at level 10, x name, m at level 100, k at level 200) : py_scope.
Notation "m1 ';;;' m2" := (bind m1 (fun _ => m2))
  (at level 100, m2 at level 200, right associativity) : py_scope.
Local Open Scope py_scope.

(** Results of sub-expressions that may raise. *)
Definition lift {R A} (r : A + PyException) : Py R A :=
  match r with
  | inl a => pure a
  | inr e => raise e
  end.

(** ** Streamlit

    A rendering call adds its element to the page and comes back; a widget
    call also hands over what the user entered. *)

Definition st_title {R} (body : str) : Py R unit :=
  fun w => (Normal tt, render (Title body) w).
Definition st_header {R} (body : str) : Py R unit :=
  fun w => (Normal tt, render (Header body) w).
Definition st_subheader {R} (body : str) : Py R unit :=
  fun w => (Normal tt, render (Subheader body) w).
Definition st_warning {R} (body : str) : Py R unit :=
  fun w => (Normal tt, render (Warning body) w).
Definition st_error {R} (body : str) : Py R unit :=
  fun w => (Normal tt, render (Error body) w).
Definition st_info {R} (body : str) : Py R unit :=
  fun w => (Normal tt, render (Info body) w).
Definition st_write {R} (body : str) : Py R unit :=
  fun w => (Normal tt, render (Write body) w).
Definition st_text_area {R} (label value : str) (height : N) : Py R unit :=
  fun w => (Normal tt, render (TextArea label value height) w).
Definition st_sidebar_header {R} (body : str) : Py R unit :=
  fun w => (Normal tt, render (SidebarHeader body) w).
Definition st_sidebar_markdown {R} (body : str) : Py R unit :=
  fun w => (Normal tt, render (SidebarMarkdown body) w).

(** The dict [analyze_system_prompt_influence] returns on success, or [None]. *)
Abbreviation Analysis := (option (gmap string str)).

Section Run.

Variable env : Env.

Definition st_sidebar_text_input {R} (label type : string) : Py R str :=
  fun w => (Normal (typed (user env) label), render (TextInput label type) w).

Definition st_file_uploader {R} (label : string) (type : list string)
    : Py R (option UploadedFile) :=
  fun w => (Normal (uploaded (user env) label), render (FileUploader label type) w).

Definition st_button {R} (label : string) : Py R bool :=
  fun w => (Normal (clicked (user env) label), render (Button label) w).

(** [os.getenv(name)]: [None] when the variable is not set. *)
Definition os_getenv (name : string) : option str := environ env !! name.

(** ** The anthropic client *)

Record Anthropic : Type := { api_key : option str }.

(** [client.messages.create(model=..., max_tokens=..., messages=...)]: one
    blocking call.  Whatever comes back, the call has been made. *)
Definition messages_create {R} (client : Anthropic) (model : str)
    (max_tokens : N) (messages : list MessageParam) : Py R Message :=
  fun w =>
    let request := {| req_api_key := api_key client; req_model := model;
                      req_max_tokens := max_tokens; req_messages := messages |} in
    match service env (length (requests w)) request with
    | Responds response => (Normal response, send request w)
    | Fails e => (Raise e, send request w)
    end.

(** [l[0]] *)
Definition first_item {R} (l : list ContentBlock) : Py R ContentBlock :=
  match l with
  | [] => raise (IndexError "list index out of range")
  | b :: _ => pure b
  end.

(** [block.text] *)
Definition text_of {R} (block : ContentBlock) : Py R str :=
  match block with
  | TextBlock text => pure text
  | ToolUseBlock _ _ =>
      raise (AttributeError "'ToolUseBlock' object has no attribute 'text'")
  end.

(** ** app.py *)

(** [api_key or os.getenv('ANTHROPIC_API_KEY')]: the left operand when it is
    truthy (neither [None] nor the empty string), otherwise the right one. *)
Definition or_getenv (api_key : option str) (name : string) : option str :=
  match api_key with
  | Some (c :: key) => Some (c :: key)
  | _ => os_getenv name
  end.

Record SystemPromptInfluenceAnalyzer : Type := { client : Anthropic }.

Definition __init__ (api_key : option str) : SystemPromptInfluenceAnalyzer :=
  {| client := {| api_key := or_getenv api_key "ANTHROPIC_API_KEY" |} |}.

(** The three literal pieces of the f-string at lines 35-65, around its two
    replacement fields. *)
Definition prompt_head : str := lit "
        You are an expert in system prompt interpretability and discourse analysis.

        Task: Carefully analyze the following system prompt and conversation log.
        Identify which specific segments of the system prompt directly influenced
        the agent's responses.

        System Prompt:
        ".

Definition prompt_middle : str := lit "

        Conversation Log:
        ".

Definition prompt_tail : str := lit "

        For EACH agent response, provide:
        1. Relevant System Prompt Segments (quote exact text)
        2. Influence Score (0-1.0)
        3. Specific Evidence of Influence
        4. Explanation of Semantic Connection

        Response Format:
        ```
        Response 1:
        - Relevant Segments: [list of segments]
        - Influence Score: X.XX
        - Evidence: [direct quote mapping]
        - Explanation: [semantic connection details]
        ```

        Provide a comprehensive, analytical breakdown that shows
        how the system prompt guides the agent's communication strategy.
        ".

(** A replacement field [{x}] with no conversion and no format spec puts
    [format(x, '')] into the result, which for a [str] is [x] itself. *)
Definition analysis_prompt (system_prompt conversation_log : str) : str :=
  prompt_head ++ system_prompt ++ prompt_middle ++ conversation_log ++ prompt_tail.

Definition analyze_system_prompt_influence {R}
    (self : SystemPromptInfluenceAnalyzer)
    (system_prompt conversation_log : str) (verbose : bool) : Py R Analysis :=
  call (None : Analysis)
    (let analysis_prompt := analysis_prompt system_prompt conversation_log in
     try_except
       (let* response :=
          messages_create (client self)
            (lit "claude-3-opus-20240229")
            4000
            [ {| role := lit "user"; content := analysis_prompt |} ] in
        let* block := first_item (msg_content response) in
        let* full_analysis := text_of block in
        py_return (Some (<["model_used" := msg_model response]>
                          (<["raw_analysis" := full_analysis]> ∅))))
       (fun e =>
          st_error (lit "Error in analysis: " ++ exc_str e) ;;;
          py_return None)).

(** [bool(d)] for a dict: it has an entry. *)
Definition dict_truthy (d : gmap string str) : bool :=
  negb (bool_decide (d = ∅)).

(** [d[key]] *)
Definition getitem {R} (d : gmap string str) (key : string) : Py R str :=
  match d !! key with
  | Some v => pure v
  | None => raise (KeyError key)
  end.

(** [not f] for the result of a file uploader. *)
Definition no_file (f : option UploadedFile) : bool :=
  match f with
  | None => true
  | Some _ => false
  end.

(** [f.getvalue().decode('utf-8')]; the caller has checked that [f] is there. *)
Definition read_text {R} (f : option UploadedFile) : Py R str :=
  match f with
  | Some file => lift (bytes_decode_utf8 (getvalue file))
  | None => raise (AttributeError "'NoneType' object has no attribute 'getvalue'")
  end.

(** The double-quote character. *)
Definition quote : N := 34.

Definition sidebar_instructions : str :=
  lit "
    ### Instructions
    1. Enter your Anthropic API Key
    2. Upload system prompt text file
    3. Upload conversation log text file
    4. Click " ++ [quote] ++
  lit "Analyze System Prompt Influence" ++ [quote] ++
  lit "

    #### File Format Requirements
    - Text files (.txt)
    - System prompt should describe the AI's behavior
    - Conversation log should include full interaction
    ".

Definition main {R} : Py R unit :=
  call tt
    (st_title (lit "System Prompt Influence Analyzer") ;;;
     st_sidebar_header (lit "Anthropic API Configuration") ;;;
     let* api_key := st_sidebar_text_input "Enter Anthropic API Key" "password" in
     st_header (lit "Upload Files") ;;;
     let* system_prompt_file :=
       st_file_uploader "Upload System Prompt Text File" ["txt"%string] in
     let* conversation_log_file :=
       st_file_uploader "Upload Conversation Log Text File" ["txt"%string] in
     let* pressed := st_button "Analyze System Prompt Influence" in
     (if pressed then
        (if no_file system_prompt_file || no_file conversation_log_file then
           st_warning (lit "Please upload both system prompt and conversation log files.") ;;;
           py_return tt
         else pure tt) ;;;
        let* texts :=
          try_except
            (let* system_prompt := read_text system_prompt_file in
             let* conversation_log := read_text conversation_log_file in
             pure (system_prompt, conversation_log))
            (fun e =>
               st_error (lit "Error reading files: " ++ exc_str e) ;;;
               py_return tt) in
        let system_prompt := fst texts in
        let conversation_log := snd texts in
        (if negb (str_truthy api_key) then
           st_warning (lit "Please enter your Anthropic API Key in the sidebar.") ;;;
           py_return tt
         else pure tt) ;;;
        try_except
          (let analyzer := __init__ (Some api_key) in
           st_info (lit "Analyzing system prompt influence... This may take a few moments.") ;;;
           let* influence_analysis :=
             analyze_system_prompt_influence analyzer system_prompt conversation_log true in
           match influence_analysis with
           | Some d =>
               if dict_truthy d then
                 st_header (lit "Analysis Results") ;;;
                 st_subheader (lit "Raw Analysis") ;;;
                 let* raw_analysis := getitem d "raw_analysis" in
                 st_text_area (lit "System Prompt Influence Analysis") raw_analysis 400 ;;;
                 st_subheader (lit "Model Information") ;;;
                 let* model_used := getitem d "model_used" in
                 st_write (lit "Model Used: " ++ model_used)
               else pure tt
           | None => pure tt
           end)
          (fun e =>
             st_error (lit "An error occurred during analysis: " ++ exc_str e))
      else pure tt) ;;;
     st_sidebar_markdown sidebar_instructions).

End Run.

(** ** Vocabulary of the statements *)

(** The request [analyze_system_prompt_influence] sends for given texts. *)
Definition analysis_request (self : SystemPromptInfluenceAnalyzer)
    (system_prompt conversation_log : str) : Request :=
  {| req_api_key := api_key (client self);
     req_model := lit "claude-3-opus-20240229";
     req_max_tokens := 4000;
     req_messages :=
       [ {| role := lit "user";
            content := analysis_prompt system_prompt conversation_log |} ] |}.

(** The exception that ends the [try] block of the method for a given
    reaction of the service, if one does. *)
Definition outcome_exception (o : ServiceOutcome) : option PyException :=
  match o with
  | Fails e => Some e
  | Responds {| msg_content := []; msg_model := _ |} =>
      Some (IndexError "list index out of range")
  | Responds {| msg_content := ToolUseBlock _ _ :: _; msg_model := _ |} =>
      Some (AttributeError "'ToolUseBlock' object has no attribute 'text'")
  | Responds {| msg_content := TextBlock _ :: _; msg_model := _ |} => None
  end.

(** What the method hands back for a given reaction of the service. *)
Definition outcome_analysis (o : ServiceOutcome) : Analysis :=
  match o with
  | Responds {| msg_content := TextBlock text :: _; msg_model := model |} =>
      Some (<["model_used" := model]> (<["raw_analysis" := text]> ∅))
  | _ => None
  end.

(** What the method renders for a given reaction of the service. *)
Definition outcome_rendering (o : ServiceOutcome) : list UIEvent :=
  match outcome_exception o with
  | Some e => [Error (lit "Error in analysis: " ++ exc_str e)]
  | None => []
  end.

(** What [main] renders before it looks at the button. *)
Definition page_top : list UIEvent :=
  [ Title (lit "System Prompt Influence Analyzer");
    SidebarHeader (lit "Anthropic API Configuration");
    TextInput "Enter Anthropic API Key" "password";
    Header (lit "Upload Files");
    FileUploader "Upload System Prompt Text File" ["txt"%string];
    FileUploader "Upload Conversation Log Text File" ["txt"%string];
    Button "Analyze System Prompt Influence" ].

(** The results panel for an analysis, as [main] lays it out. *)
Definition results_panel (raw_analysis model_used : str) : list UIEvent :=
  [ Header (lit "Analysis Results");
    Subheader (lit "Raw Analysis");
    TextArea (lit "System Prompt Influence Analysis") raw_analysis 400;
    Subheader (lit "Model Information");
    Write (lit "Model Used: " ++ model_used) ].

(** What [main] renders after a given reaction of the service. *)
Definition outcome_panel (o : ServiceOutcome) : list UIEvent :=
  match o with
  | Responds {| msg_content := TextBlock text :: _; msg_model := model |} =>
      results_panel text model
  | _ => []
  end.

(** The upload is there and its bytes are valid UTF-8. *)
Definition decodes (f : option UploadedFile) : bool :=
  match f with
  | Some file =>
      match bytes_decode_utf8 (getvalue file) with
      | inl _ => true
      | inr _ => false
      end
  | None => false
  end.

(** The text the upload decodes to, when it does. *)
Definition decoded (f : option UploadedFile) : option str :=
  match f with
  | Some file =>
      match bytes_decode_utf8 (getvalue file) with
      | inl text => Some text
      | inr _ => None
      end
  | None => None
  end.

(** The page shows an analysis result: it has a results text area. *)
Definition shows_result (page : list UIEvent) : bool :=
  existsb (fun e => match e with TextArea _ _ _ => true | _ => false end) page.

(** A user-visible warning or error. *)
Definition is_notice (e : UIEvent) : bool :=
  match e with
  | Warning _ | Error _ => true
  | _ => false
  end.

(** ** Concrete sessions

    Small worlds on which the definitions can be run. *)

Definition fresh : World := {| ui := []; requests := [] |}.

(** The bytes of an ASCII text file. *)
Definition ascii_bytes (s : string) : bytes :=
  List.map byte_of_ascii (list_ascii_of_string s).

Definition text_file (file_name contents : string) : UploadedFile :=
  {| name := file_name; getvalue := ascii_bytes contents |}.

(** A user who typed [key], uploaded the two given files (or not) and pressed
    the button (or not). *)
Definition session (key : string) (system_prompt_file conversation_log_file
    : option UploadedFile) (pressed : bool) : User :=
  {| typed := fun label =>
       if String.eqb label "Enter Anthropic API Key" then lit key else [];
     uploaded := fun label =>
       if String.eqb label "Upload System Prompt Text File" then system_prompt_file
       else if String.eqb label "Upload Conversation Log Text File"
            then conversation_log_file
       else None;
     clicked := fun label =>
       pressed && String.eqb label "Analyze System Prompt Influence" |}.

Definition helpful_prompt_file : UploadedFile :=
  text_file "system.txt" "You are a helpful assistant.".

Definition greeting_log_file : UploadedFile :=
  text_file "log.txt" "User: Hi
Assistant: Hello! How can I help?".

(** A service that always answers with one text block. *)
Definition answering_service (n : nat) (r : Request) : ServiceOutcome :=
  Responds {| msg_content := [TextBlock (lit "Response 1: ...")];
              msg_model := lit "claude-3-opus-20240229" |}.

(** A service that is down. *)
Definition outage_service (n : nat) (r : Request) : ServiceOutcome :=
  Fails (APIError "APIConnectionError" (lit "Connection error.")).

(** A service whose answer to the same request changes from call to call. *)
Definition moody_service (n : nat) (r : Request) : ServiceOutcome :=
  match n with
  | O => Responds {| msg_content := [TextBlock (lit "first answer")];
                     msg_model := lit "claude-3-opus-20240229" |}
  | S _ => Responds {| msg_content := [TextBlock (lit "second answer")];
                       msg_model := lit "claude-3-opus-20240229" |}
  end.

(** The example scenario: both files, a key, the button pressed. *)
Definition scenario_env : Env :=
  {| environ := ∅;
     service := answering_service;
     user := session "valid-key" (Some helpful_prompt_file)
               (Some greeting_log_file) true |}.

Definition outage_env : Env :=
  {| environ := ∅;
     service := outage_service;
     user := session "valid-key" (Some helpful_prompt_file)
               (Some greeting_log_file) true |}.

Definition moody_env : Env :=
  {| environ := ∅;
     service := moody_service;
     user := session "valid-key" (Some helpful_prompt_file)
               (Some greeting_log_file) true |}.

(** Two zero-byte files are uploaded. *)
Definition empty_files_env : Env :=
  {| environ := ∅;
     service := answering_service;
     user := session "valid-key" (Some (text_file "system.txt" ""))
               (Some (text_file "log.txt" "")) true |}.

(** The key field is left blank while the environment variable is set. *)
Definition env_key_only_env : Env :=
  {| environ := {[ "ANTHROPIC_API_KEY"%string := lit "env-key" ]};
     service := answering_service;
     user := session "" (Some helpful_prompt_file) (Some greeting_log_file) true |}.

(** The conversation log is missing. *)
Definition one_file_env : Env :=
  {| environ := ∅;
     service := answering_service;
     user := session "valid-key" (Some helpful_prompt_file) None true |}.

(** The conversation log is not UTF-8. *)
Definition binary_log_env : Env :=
  {| environ := ∅;
     service := answering_service;
     user := session "valid-key" (Some helpful_prompt_file)
               (Some {| name := "log.txt"; getvalue := [Byte.x48; Byte.xff] |}) true |}.

(** ** Vocabulary for whole runs *)

(** The notice [main] gives for the uploads, if it gives one: the warning of
    lines 107-109 when a file is missing, otherwise the error of lines
    115-117 for the first file that does not decode. *)
Definition upload_notice (system_prompt_file conversation_log_file
    : option UploadedFile) : option UIEvent :=
  match system_prompt_file, conversation_log_file with
  | Some a, Some b =>
      match bytes_decode_utf8 (getvalue a) with
      | inr e => Some (Error (lit "Error reading files: " ++ exc_str e))
      | inl _ =>
          match bytes_decode_utf8 (getvalue b) with
          | inr e => Some (Error (lit "Error reading files: " ++ exc_str e))
          | inl _ => None
          end
      end
  | _, _ =>
      Some (Warning (lit "Please upload both system prompt and conversation log files."))
  end.

(** Every check of the form passes: the button is pressed, both uploads are
    there and decode, and the key field is not blank. *)
Definition validated (env : Env) : bool :=
  clicked (user env) "Analyze System Prompt Influence"
  && decodes (uploaded (user env) "Upload System Prompt Text File")
  && decodes (uploaded (user env) "Upload Conversation Log Text File")
  && str_truthy (typed (user env) "Enter Anthropic API Key").

(** What one run of [main] adds to the page and to the requests, when the
    service has already received [n] requests. *)
Definition main_effect (env : Env) (n : nat) : list UIEvent * list Request :=
  let key := typed (user env) "Enter Anthropic API Key" in
  let system_prompt_file := uploaded (user env) "Upload System Prompt Text File" in
  let conversation_log_file :=
    uploaded (user env) "Upload Conversation Log Text File" in
  if clicked (user env) "Analyze System Prompt Influence" then
    match upload_notice system_prompt_file conversation_log_file with
    | Some notice => (page_top ++ [notice], [])
    | None =>
        match decoded system_prompt_file, decoded conversation_log_file with
        | Some system_prompt, Some conversation_log =>
            if str_truthy key then
              let request :=
                analysis_request {| client := {| api_key := Some key |} |}
                  system_prompt conversation_log in
              let o := service env n request in
              (page_top
               ++ [Info (lit "Analyzing system prompt influence... This may take a few moments.")]
               ++ outcome_rendering o ++ outcome_panel o
               ++ [SidebarMarkdown sidebar_instructions],
               [request])
            else
              (page_top
               ++ [Warning (lit "Please enter your Anthropic API Key in the sidebar.")],
               [])
        | _, _ => (page_top, [])
        end
    end
  else (page_top ++ [SidebarMarkdown sidebar_instructions], []).

(** The page shows the sidebar instructions of lines 150-161. *)
Definition shows_instructions (page : list UIEvent) : bool :=
  existsb (fun e => match e with SidebarMarkdown _ => true | _ => false end) page.

(** Every byte is below 0x80. *)
Definition ascii_only (b : bytes) : bool :=
  forallb (fun c => Byte.to_N c <? 0x80) b.

(** A service that answers with no content block at all. *)
Definition silent_service (n : nat) (r : Request) : ServiceOutcome :=
  Responds {| msg_content := []; msg_model := lit "claude-3-opus-20240229" |}.

Definition silent_env : Env :=
  {| environ := ∅;
     service := silent_service;
     user := session "valid-key" (Some helpful_prompt_file)
               (Some greeting_log_file) true |}.

(** Nobody has pressed the button yet. *)
Definition idle_env : Env :=
  {| environ := ∅;
     service := answering_service;
     user := session "" None None false |}.

(** Nothing uploaded, nothing typed, the button pressed. *)
Definition bare_click_env : Env :=
  {| environ := ∅;
     service := answering_service;
     user := session "" None None true |}.

(** Neither upload is UTF-8, each in its own way. *)
Definition two_binary_files_env : Env :=
  {| environ := ∅;
     service := answering_service;
     user := session "valid-key"
               (Some {| name := "system.txt"; getvalue := [Byte.xe2; Byte.x82] |})
               (Some {| name := "log.txt"; getvalue := [Byte.x48; Byte.xff] |})
               true |}.

(** * Properties *)

(** ** Strings *)

Lemma starts_with_spec (needle hay : str) :
  starts_with needle hay = true <-> exists after, hay = needle ++ after.
Proof.
  revert hay. induction needle as [|a needle IH]; intros hay; simpl.
  - split; [intros _; by exists hay | done].
  - destruct hay as [|b hay].
    + split; [done | intros [after H]; discriminate H].
    + rewrite andb_true_iff, N.eqb_eq, IH. split.
      * intros [-> [after ->]]. by exists after.
      * intros [after H]. injection H as -> ->. split; [done | by exists after].
Qed.

Lemma str_contains_spec (needle hay : str) :
  str_contains needle hay = true <-> verbatim_in needle hay.
Proof.
  unfold verbatim_in. induction hay as [|b hay IH].
  - simpl. rewrite orb_false_r, starts_with_spec. split.
    + intros [after H]. by exists [], after.
    + intros [before [after H]]. symmetry in H.
      apply app_eq_nil in H as [-> H]. apply app_eq_nil in H as [-> ->].
      by exists [].
  - cbn [str_contains]. rewrite orb_true_iff, starts_with_spec, IH. split.
    + intros [[after H] | [before [after H]]].
      * by exists [], after.
      * exists (b :: before), after. by rewrite H.
    + intros [[|c before] [after H]].
      * left. by exists after.
      * right. injection H as -> ->. by exists before, after.
Qed.

Lemma analysis_prompt_has_system_prompt (system_prompt conversation_log : str) :
  verbatim_in system_prompt (analysis_prompt system_prompt conversation_log).
Proof.
  exists prompt_head, (prompt_middle ++ conversation_log ++ prompt_tail).
  reflexivity.
Qed.

Lemma analysis_prompt_has_conversation_log (system_prompt conversation_log : str) :
  verbatim_in conversation_log (analysis_prompt system_prompt conversation_log).
Proof.
  exists (prompt_head ++ system_prompt ++ prompt_middle), prompt_tail.
  unfold analysis_prompt. by rewrite <- !app_assoc.
Qed.

(** ** One run of the method *)

Lemma rendered_app (w : World) (events : list UIEvent) (sent : list Request) :
  rendered w {| ui := ui w ++ events; requests := sent |} = events.
Proof. unfold rendered. simpl. apply drop_app_length. Qed.

Lemma issued_app (w : World) (events : list UIEvent) (sent : list Request) :
  issued w {| ui := events; requests := requests w ++ sent |} = sent.
Proof. unfold issued. simpl. apply drop_app_length. Qed.

Lemma issued_none (w : World) (events : list UIEvent) :
  issued w {| ui := events; requests := requests w |} = [].
Proof. unfold issued. simpl. apply drop_all. Qed.

(** The method always comes back normally; what it returns, renders and sends
    is fixed by the service's reaction to its single request. *)
Lemma analyze_run {R} (env : Env) (self : SystemPromptInfluenceAnalyzer)
    (system_prompt conversation_log : str) (verbose : bool) (w : World) :
  let request := analysis_request self system_prompt conversation_log in
  let o := service env (length (requests w)) request in
  @analyze_system_prompt_influence env R self system_prompt conversation_log verbose w
  = (Normal (outcome_analysis o),
     {| ui := ui w ++ outcome_rendering o; requests := requests w ++ [request] |}).
Proof.
  intros request o. subst o request.
  unfold analyze_system_prompt_influence, call, try_except, bind, messages_create,
    analysis_request.
  destruct (service env _ _) as [[[|[text|id tool] more] model]|e];
    simpl; try reflexivity.
  unfold send. simpl. by rewrite app_nil_r.
Qed.

(** ** The requester *)

(** C1: whatever the system prompt, the conversation log and the credential
    held by the client (so in particular for non-empty ones), the single
    message the requester sends carries a prompt in which both texts stand
    verbatim: the prompt is the fixed head, the system prompt, the fixed
    middle, the conversation log and the fixed tail, one after the other, so
    nothing is cut off and nothing is escaped. *)
Theorem prompt_embeds_both_texts_verbatim {R} (env : Env)
    (self : SystemPromptInfluenceAnalyzer)
    (system_prompt conversation_log : str) (verbose : bool) (w : World) :
  let w' := snd (@analyze_system_prompt_influence env R self
                   system_prompt conversation_log verbose w) in
  exists prompt : str,
    List.map req_messages (issued w w')
      = [ [ {| role := lit "user"; content := prompt |} ] ] /\
    prompt = prompt_head ++ system_prompt ++ prompt_middle
               ++ conversation_log ++ prompt_tail /\
    verbatim_in system_prompt prompt /\
    verbatim_in conversation_log prompt /\
    str_contains system_prompt prompt = true /\
    str_contains conversation_log prompt = true /\
    length prompt = (length prompt_head + length system_prompt
                     + length prompt_middle + length conversation_log
                     + length prompt_tail)%nat.
Proof.
  intros w'. subst w'. rewrite analyze_run. cbn [snd]. rewrite issued_app.
  exists (analysis_prompt system_prompt conversation_log).
  pose proof (analysis_prompt_has_system_prompt system_prompt conversation_log).
  pose proof (analysis_prompt_has_conversation_log system_prompt conversation_log).
  repeat split; try done; try by apply str_contains_spec.
  unfold analysis_prompt. rewrite !length_app. lia.
Qed.

(** C7: the run of the requester issues exactly one request, and that request
    names the model claude-3-opus-20240229, asks for at most 4000 tokens and
    holds exactly one message, of role user, whose content is the whole
    templated prompt, whatever the inputs. *)
Theorem request_has_fixed_model_limit_and_single_user_message {R} (env : Env)
    (self : SystemPromptInfluenceAnalyzer)
    (system_prompt conversation_log : str) (verbose : bool) (w : World) :
  issued w (snd (@analyze_system_prompt_influence env R self
                   system_prompt conversation_log verbose w))
  = [ {| req_api_key := api_key (client self);
         req_model := lit "claude-3-opus-20240229";
         req_max_tokens := 4000;
         req_messages :=
           [ {| role := lit "user";
                content := analysis_prompt system_prompt conversation_log |} ] |} ].
Proof. rewrite analyze_run. cbn [snd]. by rewrite issued_app. Qed.

(** C6: when the service call raises [e], the requester returns normally with
    [None], the page gains exactly one error message, which contains the text
    of [e], and exactly one request has been sent: no retry and no second
    model. *)
Theorem service_failure_is_caught_and_reported {R} (env : Env)
    (self : SystemPromptInfluenceAnalyzer)
    (system_prompt conversation_log : str) (verbose : bool) (w : World)
    (e : PyException) :
  service env (length (requests w))
    (analysis_request self system_prompt conversation_log) = Fails e ->
  let run := @analyze_system_prompt_influence env R self
               system_prompt conversation_log verbose w in
  fst run = Normal None /\
  rendered w (snd run) = [Error (lit "Error in analysis: " ++ exc_str e)] /\
  verbatim_in (exc_str e) (lit "Error in analysis: " ++ exc_str e) /\
  issued w (snd run) = [analysis_request self system_prompt conversation_log].
Proof.
  intros Hfail run. subst run. rewrite analyze_run. cbn [fst snd].
  rewrite Hfail, rendered_app, issued_app. cbn.
  repeat split. exists (lit "Error in analysis: "), []. by rewrite app_nil_r.
Qed.

Lemma service_failure_is_caught_and_reported_witness :
  service outage_env (length (requests fresh))
    (analysis_request (__init__ outage_env (Some (lit "valid-key")))
       (lit "You are a helpful assistant.") (lit "User: Hi"))
  = Fails (APIError "APIConnectionError" (lit "Connection error.")) /\
  let run := @analyze_system_prompt_influence outage_env unit
               (__init__ outage_env (Some (lit "valid-key")))
               (lit "You are a helpful assistant.") (lit "User: Hi") true fresh in
  fst run = Normal None /\
  rendered fresh (snd run)
    = [Error (lit "Error in analysis: " ++ lit "Connection error.")] /\
  verbatim_in (lit "Connection error.")
    (lit "Error in analysis: " ++ lit "Connection error.") /\
  issued fresh (snd run)
    = [analysis_request (__init__ outage_env (Some (lit "valid-key")))
         (lit "You are a helpful assistant.") (lit "User: Hi")].
Proof.
  split; [reflexivity |].
  apply (service_failure_is_caught_and_reported outage_env
           (__init__ outage_env (Some (lit "valid-key")))
           (lit "You are a helpful assistant.") (lit "User: Hi") true fresh
           (APIError "APIConnectionError" (lit "Connection error."))).
  reflexivity.
Defined.

(** C8: two invocations with the same inputs send two requests, equal to each
    other and to the request of a single invocation; the first result is read
    off the service's reaction to the first call and the second result off
    its reaction to the second call, so nothing is kept from one invocation
    to the next. *)
Theorem two_invocations_issue_two_independent_calls {R} (env : Env)
    (self : SystemPromptInfluenceAnalyzer)
    (system_prompt conversation_log : str) (verbose : bool) (w : World) :
  let request := analysis_request self system_prompt conversation_log in
  let first := @analyze_system_prompt_influence env R self
                 system_prompt conversation_log verbose w in
  let second := @analyze_system_prompt_influence env R self
                  system_prompt conversation_log verbose (snd first) in
  issued w (snd second) = [request; request] /\
  fst first = Normal (outcome_analysis (service env (length (requests w)) request)) /\
  fst second
    = Normal (outcome_analysis (service env (S (length (requests w))) request)).
Proof.
  intros request first second. subst first second request.
  rewrite !analyze_run. cbn [fst snd requests ui].
  rewrite <- !app_assoc, issued_app, length_app. cbn [length app].
  by rewrite Nat.add_1_r.
Qed.

(** C9: the [verbose] argument changes nothing: result, page and requests are
    the same for [True] and [False]. *)
Theorem verbose_is_ignored {R} (env : Env) (self : SystemPromptInfluenceAnalyzer)
    (system_prompt conversation_log : str) (w : World) :
  @analyze_system_prompt_influence env R self system_prompt conversation_log true w
  = @analyze_system_prompt_influence env R self system_prompt conversation_log false w.
Proof. by rewrite !analyze_run. Qed.

(** C10: on every input and whatever the service does, also when the response
    has no content block or a first block without text, the method comes back
    to its caller normally, with [None] or with a dict whose keys are exactly
    raw_analysis and model_used. *)
Theorem method_returns_none_or_two_key_dict {R} (env : Env)
    (self : SystemPromptInfluenceAnalyzer)
    (system_prompt conversation_log : str) (verbose : bool) (w : World) :
  exists (result : Analysis) (w' : World),
    @analyze_system_prompt_influence env R self
      system_prompt conversation_log verbose w = (Normal result, w') /\
    (result = None \/
     exists d : gmap string str,
       result = Some d /\
       dom d = ({[ "raw_analysis"%string; "model_used"%string ]} : gset string)).
Proof.
  rewrite analyze_run. eexists _, _. split; [reflexivity |].
  destruct (service env _ _) as [[[|[text|id tool] more] model]|e]; cbn;
    try (by left).
  right. eexists. split; [reflexivity |].
  rewrite !dom_insert_L, dom_empty_L. set_solver.
Qed.

(** ** One run of the script *)

Arguments lit : simpl never.
Arguments exc_str : simpl never.
Arguments bytes_decode_utf8 : simpl never.
Arguments analyze_system_prompt_influence : simpl never.
Arguments sidebar_instructions : simpl never.

Ltac enter_main :=
  unfold main, call, bind, st_title, st_sidebar_header, st_sidebar_text_input,
    st_header, st_file_uploader, st_button;
  cbn [fst snd].

Ltac same_world :=
  unfold render, send, page_top, results_panel; cbn [ui requests];
  rewrite <- ?app_assoc, ?app_nil_r; reflexivity.

Section Paths.

Context {R : Type} (env : Env) (w : World).

Let typed_key := typed (user env) "Enter Anthropic API Key".
Let system_prompt_file := uploaded (user env) "Upload System Prompt Text File".
Let conversation_log_file := uploaded (user env) "Upload Conversation Log Text File".
Let pressed := clicked (user env) "Analyze System Prompt Influence".

(** The button was not pressed: the form and the instructions, nothing else. *)
Lemma main_idle :
  pressed = false ->
  @main env R w
  = (Normal tt,
     {| ui := ui w ++ page_top ++ [SidebarMarkdown sidebar_instructions];
        requests := requests w |}).
Proof.
  subst pressed. intros Hp. enter_main. rewrite Hp. cbn. f_equal. same_world.
Qed.

(** A file is missing or is not UTF-8: one notice, then the script returns. *)
Lemma main_upload_problem :
  pressed = true ->
  decodes system_prompt_file && decodes conversation_log_file = false ->
  exists notice : UIEvent,
    @main env R w
    = (Normal tt,
       {| ui := ui w ++ page_top ++ [notice]; requests := requests w |}) /\
    is_notice notice = true.
Proof.
  subst pressed system_prompt_file conversation_log_file. intros Hp Hd.
  enter_main. rewrite Hp. unfold decodes in Hd.
  destruct (uploaded (user env) "Upload System Prompt Text File") as [f1|];
    [destruct (uploaded (user env) "Upload Conversation Log Text File") as [f2|] |].
  - cbn. unfold try_except, bind, read_text, lift.
    destruct (bytes_decode_utf8 (getvalue f1)) as [s1|e1].
    + destruct (bytes_decode_utf8 (getvalue f2)) as [s2|e2]; [done |].
      cbn. eexists (Error _). split; [f_equal; same_world | done].
    + cbn. eexists (Error _). split; [f_equal; same_world | done].
  - cbn. eexists (Warning _). split; [f_equal; same_world | done].
  - cbn. eexists (Warning _). split; [f_equal; same_world | done].
Qed.

(** Both files decode but the key field is blank. *)
Lemma main_blank_key :
  pressed = true ->
  decodes system_prompt_file && decodes conversation_log_file = true ->
  typed_key = [] ->
  @main env R w
  = (Normal tt,
     {| ui := ui w ++ page_top
              ++ [Warning (lit "Please enter your Anthropic API Key in the sidebar.")];
        requests := requests w |}).
Proof.
  subst pressed system_prompt_file conversation_log_file typed_key.
  intros Hp Hd Hk. enter_main. rewrite Hp, Hk. unfold decodes in Hd.
  destruct (uploaded (user env) "Upload System Prompt Text File") as [f1|]; [|done].
  destruct (uploaded (user env) "Upload Conversation Log Text File") as [f2|];
    [| by rewrite andb_false_r in Hd].
  cbn. unfold try_except, bind, read_text, lift.
  destruct (bytes_decode_utf8 (getvalue f1)) as [s1|e1]; [|done].
  destruct (bytes_decode_utf8 (getvalue f2)) as [s2|e2]; [|done].
  cbn. f_equal. same_world.
Qed.

(** Both files decode and a key was typed: one request, built from the typed
    key and the decoded texts, and a page that depends on the answer. *)
Lemma main_analysis (system_prompt conversation_log : str) :
  pressed = true ->
  decoded system_prompt_file = Some system_prompt ->
  decoded conversation_log_file = Some conversation_log ->
  typed_key <> [] ->
  let request :=
    analysis_request {| client := {| api_key := Some typed_key |} |}
      system_prompt conversation_log in
  let o := service env (length (requests w)) request in
  @main env R w
  = (Normal tt,
     {| ui := ui w ++ page_top
              ++ [Info (lit "Analyzing system prompt influence... This may take a few moments.")]
              ++ outcome_rendering o ++ outcome_panel o
              ++ [SidebarMarkdown sidebar_instructions];
        requests := requests w ++ [request] |}).
Proof.
  subst pressed system_prompt_file conversation_log_file typed_key.
  intros Hp Hd1 Hd2 Hk request o. subst o request.
  enter_main. rewrite Hp. unfold decoded in Hd1, Hd2.
  destruct (uploaded (user env) "Upload System Prompt Text File") as [f1|]; [|done].
  destruct (uploaded (user env) "Upload Conversation Log Text File") as [f2|]; [|done].
  cbn. unfold try_except, bind, read_text, lift.
  destruct (bytes_decode_utf8 (getvalue f1)) as [s1|e1]; [|done].
  destruct (bytes_decode_utf8 (getvalue f2)) as [s2|e2]; [|done].
  injection Hd1 as ->. injection Hd2 as ->.
  destruct (typed (user env) "Enter Anthropic API Key") as [|c key]; [done |].
  cbn. unfold try_except, bind. cbn. rewrite analyze_run.
  unfold __init__, or_getenv. cbn [render requests ui].
  destruct (service env _ _) as [[[|[text|id tool] more] model]|e]; cbn;
    f_equal; same_world.
Qed.

End Paths.

(** ** The form *)

(** C2: when the call succeeds, that is when the service answers the request
    of this run with a response whose first content block is text, the page
    is the form, the progress note, the results panel and the instructions;
    the value of the text area is that text, untouched, and the model line is
    "Model Used: " followed by the model the response names. *)
Theorem success_shows_service_text_and_model {R} (env : Env) (w : World)
    (system_prompt conversation_log text model : str) (more : list ContentBlock) :
  clicked (user env) "Analyze System Prompt Influence" = true ->
  decoded (uploaded (user env) "Upload System Prompt Text File")
    = Some system_prompt ->
  decoded (uploaded (user env) "Upload Conversation Log Text File")
    = Some conversation_log ->
  str_truthy (typed (user env) "Enter Anthropic API Key") = true ->
  service env (length (requests w))
    (analysis_request
       (__init__ env (Some (typed (user env) "Enter Anthropic API Key")))
       system_prompt conversation_log)
    = Responds {| msg_content := TextBlock text :: more; msg_model := model |} ->
  let run := @main env R w in
  fst run = Normal tt /\
  rendered w (snd run)
  = page_top
    ++ [ Info (lit "Analyzing system prompt influence... This may take a few moments.");
         Header (lit "Analysis Results");
         Subheader (lit "Raw Analysis");
         TextArea (lit "System Prompt Influence Analysis") text 400;
         Subheader (lit "Model Information");
         Write (lit "Model Used: " ++ model);
         SidebarMarkdown sidebar_instructions ].
Proof.
  intros Hp Hd1 Hd2 Hk Hs run. subst run.
  assert (Hk' : typed (user env) "Enter Anthropic API Key" <> [])
    by (intros E; by rewrite E in Hk).
  rewrite (main_analysis env w system_prompt conversation_log Hp Hd1 Hd2 Hk').
  cbn [fst snd]. split; [done |].
  unfold __init__, or_getenv in Hs.
  destruct (typed (user env) "Enter Anthropic API Key") as [|c key]; [done |].
  rewrite rendered_app. unfold outcome_rendering, outcome_exception, outcome_panel.
  by rewrite Hs.
Qed.

Lemma success_shows_service_text_and_model_witness :
  let run := @main scenario_env unit fresh in
  fst run = Normal tt /\
  rendered fresh (snd run)
  = page_top
    ++ [ Info (lit "Analyzing system prompt influence... This may take a few moments.");
         Header (lit "Analysis Results");
         Subheader (lit "Raw Analysis");
         TextArea (lit "System Prompt Influence Analysis") (lit "Response 1: ...") 400;
         Subheader (lit "Model Information");
         Write (lit "Model Used: " ++ lit "claude-3-opus-20240229");
         SidebarMarkdown sidebar_instructions ].
Proof.
  apply (success_shows_service_text_and_model scenario_env fresh
           (lit "You are a helpful assistant.")
           (lit "User: Hi
Assistant: Hello! How can I help?")
           (lit "Response 1: ...") (lit "claude-3-opus-20240229") []);
    vm_compute; reflexivity.
Defined.

(** C5: the button is pressed while a file is missing or is not valid UTF-8:
    the script ends normally after rendering the form and exactly one warning
    or error, and no request has been sent. *)
Theorem unreadable_upload_is_reported_before_any_call {R} (env : Env) (w : World) :
  clicked (user env) "Analyze System Prompt Influence" = true ->
  decodes (uploaded (user env) "Upload System Prompt Text File")
  && decodes (uploaded (user env) "Upload Conversation Log Text File") = false ->
  let run := @main env R w in
  fst run = Normal tt /\
  issued w (snd run) = [] /\
  exists notice : UIEvent,
    rendered w (snd run) = page_top ++ [notice] /\ is_notice notice = true.
Proof.
  intros Hp Hd run. subst run.
  destruct (main_upload_problem (R:=R) env w Hp Hd) as [notice [-> Hn]].
  cbn [fst snd]. split; [done |]. split.
  - apply issued_none.
  - exists notice. by rewrite rendered_app.
Qed.

Lemma unreadable_upload_is_reported_before_any_call_witness :
  clicked (user one_file_env) "Analyze System Prompt Influence" = true /\
  decodes (uploaded (user one_file_env) "Upload System Prompt Text File")
  && decodes (uploaded (user one_file_env) "Upload Conversation Log Text File")
  = false /\
  let run := @main one_file_env unit fresh in
  fst run = Normal tt /\
  issued fresh (snd run) = [] /\
  exists notice : UIEvent,
    rendered fresh (snd run) = page_top ++ [notice] /\ is_notice notice = true.
Proof.
  split; [reflexivity |]. split; [reflexivity |].
  apply (unreadable_upload_is_reported_before_any_call one_file_env fresh);
    reflexivity.
Defined.

(** C3, as stated, fails: two zero-byte uploads decode to the empty string,
    pass every check of the form, and a result is shown. *)
Lemma result_for_empty_texts_counterexample :
  decoded (uploaded (user empty_files_env) "Upload System Prompt Text File")
    = Some [] /\
  decoded (uploaded (user empty_files_env) "Upload Conversation Log Text File")
    = Some [] /\
  shows_result (rendered fresh (snd (@main empty_files_env unit fresh))) = true.
Proof. vm_compute. repeat split. Qed.

(** C3, amended: a run shows a result only if the button was pressed, both
    files were uploaded and are valid UTF-8 (the decoded texts may be empty),
    and the key field is not blank. *)
Theorem result_only_after_uploads_and_typed_key {R} (env : Env) (w : World) :
  shows_result (rendered w (snd (@main env R w))) = true ->
  clicked (user env) "Analyze System Prompt Influence" = true /\
  decodes (uploaded (user env) "Upload System Prompt Text File") = true /\
  decodes (uploaded (user env) "Upload Conversation Log Text File") = true /\
  str_truthy (typed (user env) "Enter Anthropic API Key") = true.
Proof.
  intros Hshown.
  destruct (clicked (user env) "Analyze System Prompt Influence") eqn:Hp.
  2:{ rewrite (main_idle env w Hp) in Hshown. cbn [snd] in Hshown.
      by rewrite rendered_app in Hshown. }
  destruct (decodes (uploaded (user env) "Upload System Prompt Text File")
            && decodes (uploaded (user env) "Upload Conversation Log Text File"))
    eqn:Hd.
  2:{ destruct (main_upload_problem (R:=R) env w Hp Hd) as [notice [Hrun Hn]].
      rewrite Hrun in Hshown. cbn [snd] in Hshown.
      rewrite rendered_app in Hshown. by destruct notice. }
  apply andb_true_iff in Hd as [Hd1 Hd2].
  destruct (typed (user env) "Enter Anthropic API Key") as [|c key] eqn:Hk.
  { assert (Hd : decodes (uploaded (user env) "Upload System Prompt Text File")
                 && decodes (uploaded (user env) "Upload Conversation Log Text File")
                 = true) by (by rewrite Hd1, Hd2).
    rewrite (main_blank_key env w Hp Hd Hk) in Hshown. cbn [snd] in Hshown.
    by rewrite rendered_app in Hshown. }
  done.
Qed.

Lemma result_only_after_uploads_and_typed_key_witness :
  clicked (user scenario_env) "Analyze System Prompt Influence" = true /\
  decodes (uploaded (user scenario_env) "Upload System Prompt Text File") = true /\
  decodes (uploaded (user scenario_env) "Upload Conversation Log Text File")
    = true /\
  str_truthy (typed (user scenario_env) "Enter Anthropic API Key") = true.
Proof.
  apply (result_only_after_uploads_and_typed_key (R:=unit) scenario_env fresh).
  vm_compute. reflexivity.
Defined.




(** X13: pressing the button a second time runs the script again: a new
    analyzer, a second request equal to the first, nothing reused. *)
Lemma two_clicks_issue_two_requests {R} (env : Env) (w : World)
    (system_prompt conversation_log : str) :
  clicked (user env) "Analyze System Prompt Influence" = true ->
  decoded (uploaded (user env) "Upload System Prompt Text File")
    = Some system_prompt ->
  decoded (uploaded (user env) "Upload Conversation Log Text File")
    = Some conversation_log ->
  typed (user env) "Enter Anthropic API Key" <> [] ->
  let request :=
    analysis_request
      {| client := {| api_key := Some (typed (user env) "Enter Anthropic API Key") |} |}
      system_prompt conversation_log in
  let first := @main env R w in
  let second := @main env R (snd first) in
  issued w (snd second) = [request; request].
Proof.
  intros Hp Hd1 Hd2 Hk request first second. subst first second request.
  rewrite (main_analysis env w system_prompt conversation_log Hp Hd1 Hd2 Hk).
  cbn [snd].
  rewrite (main_analysis env _ system_prompt conversation_log Hp Hd1 Hd2 Hk).
  cbn [snd requests]. by rewrite <- app_assoc, issued_app.
Qed.

(** ** The definitions at work *)

Example template_lengths :
  (length prompt_head, length prompt_middle, length prompt_tail,
   length sidebar_instructions) = (313, 36, 622, 356)%nat.
Proof. reflexivity. Qed.

Example decode_multibyte :
  bytes_decode_utf8 [Byte.x48; Byte.xc3; Byte.xa9; Byte.xe2; Byte.x82; Byte.xac;
                     Byte.xf0; Byte.x9f; Byte.x98; Byte.x80]
  = inl [72; 233; 8364; 128512].
Proof. reflexivity. Qed.

Example decode_invalid_start :
  match bytes_decode_utf8 [Byte.x48; Byte.xff] with
  | inr e => exc_str e
  | inl _ => []
  end
  = lit "'utf-8' codec can't decode byte 0xff in position 1: invalid start byte".
Proof. reflexivity. Qed.

Example decode_truncated :
  match bytes_decode_utf8 [Byte.xe2; Byte.x82] with
  | inr e => exc_str e
  | inl _ => []
  end
  = lit "'utf-8' codec can't decode bytes in position 0-1: unexpected end of data".
Proof. reflexivity. Qed.

Example decode_bad_continuation :
  match bytes_decode_utf8 [Byte.x61; Byte.x62; Byte.xf0; Byte.x9f; Byte.x28; Byte.x80] with
  | inr e => exc_str e
  | inl _ => []
  end
  = lit "'utf-8' codec can't decode bytes in position 2-3: invalid continuation byte".
Proof. reflexivity. Qed.

Example decode_surrogate_rejected :
  bytes_decode_utf8 [Byte.xed; Byte.xa0; Byte.x80]
  = inr (UnicodeDecodeError [Byte.xed; Byte.xa0; Byte.x80] 0 1
           "invalid continuation byte").
Proof. reflexivity. Qed.

(** The example scenario: one request, whose prompt holds both texts. *)
Example scenario_sends_one_request :
  issued fresh (snd (@main scenario_env unit fresh))
  = [ {| req_api_key := Some (lit "valid-key");
         req_model := lit "claude-3-opus-20240229";
         req_max_tokens := 4000;
         req_messages :=
           [ {| role := lit "user";
                content :=
                  analysis_prompt (lit "You are a helpful assistant.")
                    (lit "User: Hi
Assistant: Hello! How can I help?") |} ] |} ].
Proof. vm_compute. reflexivity. Qed.

Example scenario_prompt_contains_both_texts :
  let prompt := analysis_prompt (lit "You are a helpful assistant.")
                  (lit "User: Hi
Assistant: Hello! How can I help?") in
  str_contains (lit "You are a helpful assistant.") prompt = true /\
  str_contains (lit "User: Hi
Assistant: Hello! How can I help?") prompt = true /\
  str_contains (lit "You are a harmful assistant.") prompt = false.
Proof. vm_compute. repeat split. Qed.

(** The same scenario during an outage: an error, no analysis text. *)
Example outage_shows_error_only :
  rendered fresh (snd (@main outage_env unit fresh))
  = page_top
    ++ [ Info (lit "Analyzing system prompt influence... This may take a few moments.");
         Error (lit "Error in analysis: Connection error.");
         SidebarMarkdown sidebar_instructions ].
Proof. vm_compute. reflexivity. Qed.

(** A file that is not UTF-8: the decoder's message reaches the page. *)
Example binary_log_is_reported :
  rendered fresh (snd (@main binary_log_env unit fresh))
  = page_top
    ++ [ Error (lit "Error reading files: 'utf-8' codec can't decode byte 0xff in position 1: invalid start byte") ]
  /\ issued fresh (snd (@main binary_log_env unit fresh)) = [].
Proof. vm_compute. split; reflexivity. Qed.

(** Two invocations against a service whose answers vary: two requests, two
    different results. *)
Example moody_service_is_asked_twice :
  let self := __init__ moody_env (Some (lit "valid-key")) in
  let first := @analyze_system_prompt_influence moody_env unit self
                 (lit "S") (lit "L") true fresh in
  let second := @analyze_system_prompt_influence moody_env unit self
                  (lit "S") (lit "L") true (snd first) in
  let raw_analysis (run : Completion unit Analysis * World) :=
    match fst run with
    | Normal (Some d) => d !! "raw_analysis"
    | _ => None
    end in
  length (requests (snd second)) = 2%nat /\
  raw_analysis first = Some (lit "first answer") /\
  raw_analysis second = Some (lit "second answer").
Proof. vm_compute. repeat split. Qed.

(** The constructor on its own does fall back to the environment. *)
Example constructor_falls_back_to_environment :
  api_key (client (__init__ env_key_only_env None)) = Some (lit "env-key") /\
  api_key (client (__init__ env_key_only_env (Some (lit "typed"))))
    = Some (lit "typed") /\
  api_key (client (__init__ scenario_env None)) = None.
Proof. vm_compute. repeat split. Qed.

(** ** Whole runs *)

Lemma decodes_decoded (f : option UploadedFile) :
  decodes f = true <-> exists text, decoded f = Some text.
Proof.
  unfold decodes, decoded. destruct f as [file|].
  - destruct (bytes_decode_utf8 (getvalue file)) as [text|e].
    + split; [by exists text | done].
    + split; [done | by intros [text H]].
  - split; [done | by intros [text H]].
Qed.

Lemma upload_notice_is_notice (f1 f2 : option UploadedFile) (notice : UIEvent) :
  upload_notice f1 f2 = Some notice -> is_notice notice = true.
Proof.
  unfold upload_notice. intros H.
  destruct f1 as [a|], f2 as [b|]; try (by injection H as <-).
  destruct (bytes_decode_utf8 (getvalue a)); [| by injection H as <-].
  destruct (bytes_decode_utf8 (getvalue b)); [done | by injection H as <-].
Qed.

Lemma upload_notice_none (f1 f2 : option UploadedFile) :
  upload_notice f1 f2 = None <-> decodes f1 && decodes f2 = true.
Proof.
  unfold upload_notice, decodes.
  destruct f1 as [a|], f2 as [b|]; try done.
  - destruct (bytes_decode_utf8 (getvalue a)); [| done].
    destruct (bytes_decode_utf8 (getvalue b)); done.
  - cbn. by rewrite andb_false_r.
Qed.

(** One run of [main], whatever the session: it ends normally and adds to
    the world what [main_effect] says. *)
Lemma main_run {R} (env : Env) (w : World) :
  @main env R w
  = (Normal tt,
     {| ui := ui w ++ fst (main_effect env (length (requests w)));
        requests := requests w ++ snd (main_effect env (length (requests w))) |}).
Proof.
  unfold main_effect, upload_notice, decoded. enter_main.
  destruct (clicked (user env) "Analyze System Prompt Influence");
    [| cbn; f_equal; same_world].
  destruct (uploaded (user env) "Upload System Prompt Text File") as [f1|];
    [| cbn; f_equal; same_world].
  destruct (uploaded (user env) "Upload Conversation Log Text File") as [f2|];
    [| cbn; f_equal; same_world].
  cbn. unfold try_except, bind, read_text, lift.
  destruct (bytes_decode_utf8 (getvalue f1)) as [s1|e1];
    [| cbn; f_equal; same_world].
  destruct (bytes_decode_utf8 (getvalue f2)) as [s2|e2];
    [| cbn; f_equal; same_world].
  destruct (typed (user env) "Enter Anthropic API Key") as [|c key];
    [cbn; f_equal; same_world |].
  cbn. unfold try_except, bind. cbn. rewrite analyze_run.
  unfold __init__, or_getenv. cbn [render requests ui].
  destruct (service env _ _) as [[[|[text|id tool] more] model]|e]; cbn;
    f_equal; same_world.
Qed.

Ltac run_main :=
  rewrite main_run; cbn [fst snd]; rewrite ?rendered_app, ?issued_app.

(** X1: as long as the button has not been pressed, a run renders the form
    and the instructions and nothing else, and sends nothing, whatever is
    typed, uploaded or set in the environment. *)
Theorem idle_run_renders_form_and_instructions {R} (env : Env) (w : World) :
  clicked (user env) "Analyze System Prompt Influence" = false ->
  let run := @main env R w in
  fst run = Normal tt /\
  rendered w (snd run) = page_top ++ [SidebarMarkdown sidebar_instructions] /\
  issued w (snd run) = [].
Proof.
  intros Hp run. subst run. run_main. unfold main_effect. by rewrite Hp.
Qed.

Lemma idle_run_renders_form_and_instructions_witness :
  let run := @main idle_env unit fresh in
  fst run = Normal tt /\
  rendered fresh (snd run) = page_top ++ [SidebarMarkdown sidebar_instructions] /\
  issued fresh (snd run) = [].
Proof.
  apply (idle_run_renders_form_and_instructions idle_env fresh). reflexivity.
Defined.

(** X2: every run starts the page with the same seven elements: the title,
    the sidebar header, the key field, the upload header, the two uploaders
    and the button; validation and analysis only ever add below them. *)
Theorem form_is_rendered_first {R} (env : Env) (w : World) :
  exists below : list UIEvent,
    rendered w (snd (@main env R w)) = page_top ++ below.
Proof.
  run_main. unfold main_effect.
  destruct (clicked _ _); [| by eexists].
  destruct (upload_notice _ _); [by eexists |].
  destruct (decoded _) as [sp|]; [| exists []; by rewrite app_nil_r].
  destruct (decoded _) as [cl|]; [| exists []; by rewrite app_nil_r].
  destruct (str_truthy _); by eexists.
Qed.

(** X3: the sidebar instructions are the last statement of [main], so the
    three validation exits, which [return], leave them out: they are on the
    page exactly when the button was not pressed or every check passed. *)
Theorem instructions_shown_unless_validation_returns {R} (env : Env) (w : World) :
  shows_instructions (rendered w (snd (@main env R w))) = true <->
  clicked (user env) "Analyze System Prompt Influence" = false \/
  validated env = true.
Proof.
  run_main. unfold main_effect, validated.
  destruct (clicked _ _); cbn [andb]; [| split; [by left | done]].
  destruct (upload_notice _ _) as [notice|] eqn:Hn.
  - pose proof (upload_notice_is_notice _ _ _ Hn) as Hnotice.
    assert (Hd : decodes (uploaded (user env) "Upload System Prompt Text File")
                 && decodes (uploaded (user env) "Upload Conversation Log Text File")
                 = false).
    { destruct (_ && _) eqn:E; [| done].
      apply upload_notice_none in E. congruence. }
    rewrite Hd. cbn [andb]. split; [| by intros [?|?]].
    destruct notice; done.
  - apply upload_notice_none in Hn as Hd. rewrite Hd. cbn [andb].
    apply andb_true_iff in Hd as [Hd1 Hd2].
    apply decodes_decoded in Hd1 as [sp ->], Hd2 as [cl ->].
    destruct (str_truthy _); [| split; [done | by intros [?|?]]].
    split; [by right | intros _].
    cbn [fst]. unfold shows_instructions. rewrite !existsb_app. cbn.
    by rewrite !orb_true_r.
Qed.

(** X4: the check for the uploads comes first.  When a file is missing, the
    one notice is the upload warning, also when the key field is blank or
    the other file is not UTF-8, and nothing is sent. *)
Theorem missing_upload_warning_comes_first {R} (env : Env) (w : World) :
  clicked (user env) "Analyze System Prompt Influence" = true ->
  no_file (uploaded (user env) "Upload System Prompt Text File")
  || no_file (uploaded (user env) "Upload Conversation Log Text File") = true ->
  let run := @main env R w in
  rendered w (snd run)
  = page_top
    ++ [Warning (lit "Please upload both system prompt and conversation log files.")]
  /\ issued w (snd run) = [].
Proof.
  intros Hp Hf run. subst run. run_main. unfold main_effect, upload_notice.
  rewrite Hp.
  destruct (uploaded (user env) "Upload System Prompt Text File") as [a|];
    [| done].
  destruct (uploaded (user env) "Upload Conversation Log Text File") as [b|];
    done.
Qed.

Lemma missing_upload_warning_comes_first_witness :
  typed (user bare_click_env) "Enter Anthropic API Key" = [] /\
  let run := @main bare_click_env unit fresh in
  rendered fresh (snd run)
  = page_top
    ++ [Warning (lit "Please upload both system prompt and conversation log files.")]
  /\ issued fresh (snd run) = [].
Proof.
  split; [reflexivity |].
  apply (missing_upload_warning_comes_first bare_click_env fresh); reflexivity.
Defined.

(** X5: the files are decoded in order inside one [try].  When both are
    uploaded and the system prompt is not UTF-8, the error shown is the one
    of the system prompt, whatever the conversation log holds; when the
    system prompt decodes and the conversation log does not, it is the one of
    the conversation log.  Either way nothing is sent. *)
Theorem first_undecodable_file_is_reported {R} (env : Env) (w : World)
    (system_prompt_file conversation_log_file : UploadedFile) (e : PyException) :
  clicked (user env) "Analyze System Prompt Influence" = true ->
  uploaded (user env) "Upload System Prompt Text File" = Some system_prompt_file ->
  uploaded (user env) "Upload Conversation Log Text File"
    = Some conversation_log_file ->
  bytes_decode_utf8 (getvalue system_prompt_file) = inr e \/
  (decodes (Some system_prompt_file) = true /\
   bytes_decode_utf8 (getvalue conversation_log_file) = inr e) ->
  let run := @main env R w in
  rendered w (snd run)
  = page_top ++ [Error (lit "Error reading files: " ++ exc_str e)]
  /\ issued w (snd run) = [].
Proof.
  intros Hp Hf1 Hf2 He run. subst run. run_main.
  unfold main_effect, upload_notice. rewrite Hp, Hf1, Hf2.
  destruct He as [He | [Hd He]].
  - by rewrite He.
  - unfold decodes in Hd.
    destruct (bytes_decode_utf8 (getvalue system_prompt_file)); [| done].
    by rewrite He.
Qed.

Lemma first_undecodable_file_is_reported_witness :
  let run := @main two_binary_files_env unit fresh in
  rendered fresh (snd run)
  = page_top
    ++ [Error (lit "Error reading files: "
               ++ exc_str (UnicodeDecodeError [Byte.xe2; Byte.x82] 0 2
                             "unexpected end of data"))]
  /\ issued fresh (snd run) = [].
Proof.
  apply (first_undecodable_file_is_reported two_binary_files_env fresh
           {| name := "system.txt"; getvalue := [Byte.xe2; Byte.x82] |}
           {| name := "log.txt"; getvalue := [Byte.x48; Byte.xff] |}
           (UnicodeDecodeError [Byte.xe2; Byte.x82] 0 2 "unexpected end of data"));
    try reflexivity.
  left. reflexivity.
Defined.

(** X6: no exception leaves [main]: a decoding error and every failure of the
    analysis are turned into page elements, and the run ends normally in
    every session and for every behaviour of the service. *)
Theorem main_ends_normally {R} (env : Env) (w : World) :
  fst (@main env R w) = Normal tt.
Proof. by rewrite main_run. Qed.

(** X7: a run sends at most one request, and it sends one exactly when the
    button is pressed, both uploads decode and the key field is not blank;
    until then neither the texts nor the key leave the process. *)
Theorem one_request_exactly_when_validated {R} (env : Env) (w : World) :
  length (issued w (snd (@main env R w))) = if validated env then 1%nat else 0%nat.
Proof.
  run_main. unfold main_effect, validated.
  destruct (clicked _ _); cbn [andb]; [| done].
  destruct (upload_notice _ _) as [notice|] eqn:Hn.
  - destruct (decodes (uploaded (user env) "Upload System Prompt Text File")
              && decodes (uploaded (user env) "Upload Conversation Log Text File"))
      eqn:E; [| done].
    apply upload_notice_none in E. congruence.
  - apply upload_notice_none in Hn as Hd. rewrite Hd. cbn [andb].
    apply andb_true_iff in Hd as [Hd1 Hd2].
    apply decodes_decoded in Hd1 as [sp ->], Hd2 as [cl ->].
    by destruct (str_truthy _).
Qed.

(** When every check passes, the run is the analysis path. *)
Lemma main_effect_validated (env : Env) (n : nat)
    (system_prompt conversation_log : str) :
  clicked (user env) "Analyze System Prompt Influence" = true ->
  decoded (uploaded (user env) "Upload System Prompt Text File")
    = Some system_prompt ->
  decoded (uploaded (user env) "Upload Conversation Log Text File")
    = Some conversation_log ->
  str_truthy (typed (user env) "Enter Anthropic API Key") = true ->
  let request :=
    analysis_request
      (__init__ env (Some (typed (user env) "Enter Anthropic API Key")))
      system_prompt conversation_log in
  let o := service env n request in
  main_effect env n
  = (page_top
     ++ [Info (lit "Analyzing system prompt influence... This may take a few moments.")]
     ++ outcome_rendering o ++ outcome_panel o
     ++ [SidebarMarkdown sidebar_instructions],
     [request]).
Proof.
  intros Hp Hd1 Hd2 Hk request o. subst o request. unfold main_effect.
  assert (Hn : upload_notice
                 (uploaded (user env) "Upload System Prompt Text File")
                 (uploaded (user env) "Upload Conversation Log Text File") = None).
  { apply upload_notice_none, andb_true_iff.
    split; apply decodes_decoded; by eexists. }
  rewrite Hp, Hn, Hd1, Hd2, Hk. unfold __init__, or_getenv.
  by destruct (typed (user env) "Enter Anthropic API Key").
Qed.

(** X8: a run shows a result exactly when the button is pressed, both uploads
    decode, the key field is not blank, and the service answers this run's
    request with a response whose first content block is text. *)
Theorem result_shown_exactly_on_text_answer {R} (env : Env) (w : World) :
  shows_result (rendered w (snd (@main env R w))) = true <->
  clicked (user env) "Analyze System Prompt Influence" = true /\
  exists (system_prompt conversation_log text model : str)
         (more : list ContentBlock),
    decoded (uploaded (user env) "Upload System Prompt Text File")
      = Some system_prompt /\
    decoded (uploaded (user env) "Upload Conversation Log Text File")
      = Some conversation_log /\
    str_truthy (typed (user env) "Enter Anthropic API Key") = true /\
    service env (length (requests w))
      (analysis_request
         (__init__ env (Some (typed (user env) "Enter Anthropic API Key")))
         system_prompt conversation_log)
    = Responds {| msg_content := TextBlock text :: more; msg_model := model |}.
Proof.
  run_main. split.
  - intros Hshown.
    destruct (clicked (user env) "Analyze System Prompt Influence") eqn:Hp;
      [| unfold main_effect in Hshown; by rewrite Hp in Hshown].
    split; [done |].
    destruct (upload_notice
                (uploaded (user env) "Upload System Prompt Text File")
                (uploaded (user env) "Upload Conversation Log Text File"))
      as [notice|] eqn:Hn.
    { unfold main_effect in Hshown. rewrite Hp, Hn in Hshown.
      apply upload_notice_is_notice in Hn. by destruct notice. }
    apply upload_notice_none, andb_true_iff in Hn as [Hd1 Hd2].
    apply decodes_decoded in Hd1 as [sp Hd1], Hd2 as [cl Hd2].
    destruct (str_truthy (typed (user env) "Enter Anthropic API Key")) eqn:Hk.
    2:{ unfold main_effect in Hshown.
        assert (Hn : upload_notice
                       (uploaded (user env) "Upload System Prompt Text File")
                       (uploaded (user env) "Upload Conversation Log Text File")
                     = None).
        { apply upload_notice_none, andb_true_iff.
          split; apply decodes_decoded; by eexists. }
        by rewrite Hp, Hn, Hd1, Hd2, Hk in Hshown. }
    rewrite (main_effect_validated env _ sp cl Hp Hd1 Hd2 Hk) in Hshown.
    cbn [fst] in Hshown.
    destruct (service env _ _) as [[[|[text|id tool] more] model]|e] eqn:Hs;
      try done.
    by exists sp, cl, text, model, more.
  - intros [Hp (sp & cl & text & model & more & Hd1 & Hd2 & Hk & Hs)].
    rewrite (main_effect_validated env _ sp cl Hp Hd1 Hd2 Hk). cbn [fst].
    by rewrite Hs.
Qed.

(** X9: when every check passes and the service call raises [e], the page is
    the form, the progress note, the error with the text of [e] and the
    instructions: there is no results panel, and the one request is not
    repeated. *)
Theorem service_failure_page {R} (env : Env) (w : World)
    (system_prompt conversation_log : str) (e : PyException) :
  clicked (user env) "Analyze System Prompt Influence" = true ->
  decoded (uploaded (user env) "Upload System Prompt Text File")
    = Some system_prompt ->
  decoded (uploaded (user env) "Upload Conversation Log Text File")
    = Some conversation_log ->
  str_truthy (typed (user env) "Enter Anthropic API Key") = true ->
  service env (length (requests w))
    (analysis_request
       (__init__ env (Some (typed (user env) "Enter Anthropic API Key")))
       system_prompt conversation_log)
    = Fails e ->
  let run := @main env R w in
  rendered w (snd run)
  = page_top
    ++ [ Info (lit "Analyzing system prompt influence... This may take a few moments.");
         Error (lit "Error in analysis: " ++ exc_str e);
         SidebarMarkdown sidebar_instructions ] /\
  shows_result (rendered w (snd run)) = false /\
  length (issued w (snd run)) = 1%nat.
Proof.
  intros Hp Hd1 Hd2 Hk Hs run. subst run. run_main.
  rewrite (main_effect_validated env _ system_prompt conversation_log Hp Hd1 Hd2 Hk).
  cbn [fst snd]. by rewrite Hs.
Qed.

Lemma service_failure_page_witness :
  let run := @main outage_env unit fresh in
  rendered fresh (snd run)
  = page_top
    ++ [ Info (lit "Analyzing system prompt influence... This may take a few moments.");
         Error (lit "Error in analysis: "
                ++ exc_str (APIError "APIConnectionError" (lit "Connection error.")));
         SidebarMarkdown sidebar_instructions ] /\
  shows_result (rendered fresh (snd run)) = false /\
  length (issued fresh (snd run)) = 1%nat.
Proof.
  apply (service_failure_page outage_env fresh
           (lit "You are a helpful assistant.")
           (lit "User: Hi
Assistant: Hello! How can I help?")
           (APIError "APIConnectionError" (lit "Connection error.")));
    vm_compute; reflexivity.
Defined.

(** ** More on the requester *)

(** X10: a response that arrives but has an empty content list is handled
    like a failed call: [response.content[0]] raises inside the [try], the
    method renders the index error and returns [None], and the request is
    not sent again. *)
Theorem empty_content_is_reported_as_index_error {R} (env : Env)
    (self : SystemPromptInfluenceAnalyzer)
    (system_prompt conversation_log model : str) (verbose : bool) (w : World) :
  service env (length (requests w))
    (analysis_request self system_prompt conversation_log)
    = Responds {| msg_content := []; msg_model := model |} ->
  let run := @analyze_system_prompt_influence env R self
               system_prompt conversation_log verbose w in
  fst run = Normal None /\
  rendered w (snd run)
    = [Error (lit "Error in analysis: " ++ lit "list index out of range")] /\
  issued w (snd run) = [analysis_request self system_prompt conversation_log].
Proof.
  intros Hs run. subst run. rewrite analyze_run. cbn [fst snd].
  rewrite Hs, rendered_app, issued_app. done.
Qed.

Lemma empty_content_is_reported_as_index_error_witness :
  let run := @analyze_system_prompt_influence silent_env unit
               (__init__ silent_env (Some (lit "valid-key")))
               (lit "S") (lit "L") true fresh in
  fst run = Normal None /\
  rendered fresh (snd run)
    = [Error (lit "Error in analysis: " ++ lit "list index out of range")] /\
  issued fresh (snd run)
    = [analysis_request (__init__ silent_env (Some (lit "valid-key")))
         (lit "S") (lit "L")].
Proof.
  apply (empty_content_is_reported_as_index_error silent_env
           (__init__ silent_env (Some (lit "valid-key")))
           (lit "S") (lit "L") (lit "claude-3-opus-20240229") true fresh).
  reflexivity.
Defined.

(** X11: when the first content block of the response is text, the method
    renders nothing and returns a dict in which raw_analysis is that text and
    model_used is the model named by the response; the blocks after the first
    are not looked at. *)
Theorem success_returns_first_text_and_model {R} (env : Env)
    (self : SystemPromptInfluenceAnalyzer)
    (system_prompt conversation_log text model : str)
    (more : list ContentBlock) (verbose : bool) (w : World) :
  service env (length (requests w))
    (analysis_request self system_prompt conversation_log)
    = Responds {| msg_content := TextBlock text :: more; msg_model := model |} ->
  let run := @analyze_system_prompt_influence env R self
               system_prompt conversation_log verbose w in
  rendered w (snd run) = [] /\
  exists d : gmap string str,
    fst run = Normal (Some d) /\
    d !! "raw_analysis" = Some text /\
    d !! "model_used" = Some model /\
    size d = 2%nat.
Proof.
  intros Hs run. subst run. rewrite analyze_run. cbn [fst snd].
  rewrite Hs, rendered_app. split; [done |]. cbn [outcome_analysis].
  eexists. split; [reflexivity |]. split; [| split].
  - rewrite lookup_insert_ne by done. apply lookup_insert_eq.
  - apply lookup_insert_eq.
  - rewrite map_size_insert_None by (by rewrite lookup_insert_ne).
    by rewrite map_size_insert_None, map_size_empty by apply lookup_empty.
Qed.

Lemma success_returns_first_text_and_model_witness :
  let run := @analyze_system_prompt_influence scenario_env unit
               (__init__ scenario_env (Some (lit "valid-key")))
               (lit "S") (lit "L") true fresh in
  rendered fresh (snd run) = [] /\
  exists d : gmap string str,
    fst run = Normal (Some d) /\
    d !! "raw_analysis" = Some (lit "Response 1: ...") /\
    d !! "model_used" = Some (lit "claude-3-opus-20240229") /\
    size d = 2%nat.
Proof.
  apply (success_returns_first_text_and_model scenario_env
           (__init__ scenario_env (Some (lit "valid-key")))
           (lit "S") (lit "L") (lit "Response 1: ...")
           (lit "claude-3-opus-20240229") [] true fresh).
  reflexivity.
Defined.

Lemma two_clicks_issue_two_requests_witness :
  let request :=
    analysis_request {| client := {| api_key := Some (lit "valid-key") |} |}
      (lit "You are a helpful assistant.")
      (lit "User: Hi
Assistant: Hello! How can I help?") in
  let first := @main moody_env unit fresh in
  let second := @main moody_env unit (snd first) in
  issued fresh (snd second) = [request; request].
Proof.
  apply (two_clicks_issue_two_requests moody_env fresh
           (lit "You are a helpful assistant.")
           (lit "User: Hi
Assistant: Hello! How can I help?"));
    try (vm_compute; reflexivity).
  vm_compute. discriminate.
Defined.

(** ** The template *)

(** X12: with the other text fixed, different system prompts give different
    prompts, and so do different conversation logs: the template loses
    nothing of either text. *)
Theorem analysis_prompt_injective_in_each_text
    (system_prompt system_prompt' conversation_log conversation_log' : str) :
  (analysis_prompt system_prompt conversation_log
   = analysis_prompt system_prompt' conversation_log ->
   system_prompt = system_prompt') /\
  (analysis_prompt system_prompt conversation_log
   = analysis_prompt system_prompt conversation_log' ->
   conversation_log = conversation_log').
Proof.
  unfold analysis_prompt. split; intros H.
  - apply app_inv_head in H. by apply app_inv_tail in H.
  - do 3 apply app_inv_head in H. by apply app_inv_tail in H.
Qed.

(** X14: the pair of texts, however, cannot always be read back from the
    prompt.  The texts are pasted in as they are, so a system prompt that
    itself contains the separator (the blank line and the heading
    "Conversation Log:") yields the very prompt of a shorter system prompt
    with a longer conversation log. *)
Theorem analysis_prompt_boundary_can_shift (a b c : str) :
  analysis_prompt (a ++ prompt_middle ++ b) c
  = analysis_prompt a (b ++ prompt_middle ++ c) /\
  a ++ prompt_middle ++ b <> a.
Proof.
  split.
  - unfold analysis_prompt. by rewrite <- !app_assoc.
  - intros H. apply (f_equal length) in H. rewrite !length_app in H.
    assert (length prompt_middle = 36%nat) by reflexivity. lia.
Qed.

(** ** The environment and the decoder *)



Lemma utf8_decode_ascii (object rest : bytes) (pos : nat) :
  ascii_only rest = true ->
  utf8_decode object pos rest = inl (List.map Byte.to_N rest).
Proof.
  revert pos. induction rest as [|b rest IH]; intros pos H; [done |].
  cbn [ascii_only forallb] in H. apply andb_true_iff in H as [Hb Hrest].
  cbn [utf8_decode List.map]. rewrite Hb. by rewrite IH.
Qed.

(** X16: an upload made of bytes below 0x80 always decodes, to the same
    characters.  So when both uploads are plain ASCII and a key is typed, the
    run cannot end in "Error reading files": it sends the request whose
    prompt is built from the bytes of the two files, character for byte. *)
Theorem ascii_uploads_reach_the_prompt {R} (env : Env) (w : World)
    (system_prompt_file conversation_log_file : UploadedFile) :
  clicked (user env) "Analyze System Prompt Influence" = true ->
  uploaded (user env) "Upload System Prompt Text File" = Some system_prompt_file ->
  uploaded (user env) "Upload Conversation Log Text File"
    = Some conversation_log_file ->
  ascii_only (getvalue system_prompt_file) = true ->
  ascii_only (getvalue conversation_log_file) = true ->
  str_truthy (typed (user env) "Enter Anthropic API Key") = true ->
  List.map req_messages (issued w (snd (@main env R w)))
  = [ [ {| role := lit "user";
           content :=
             analysis_prompt
               (List.map Byte.to_N (getvalue system_prompt_file))
               (List.map Byte.to_N (getvalue conversation_log_file)) |} ] ].
Proof.
  intros Hp Hf1 Hf2 Ha1 Ha2 Hk. run_main.
  rewrite (main_effect_validated env _
             (List.map Byte.to_N (getvalue system_prompt_file))
             (List.map Byte.to_N (getvalue conversation_log_file)) Hp); try done.
  - rewrite Hf1. unfold decoded, bytes_decode_utf8.
    by rewrite utf8_decode_ascii.
  - rewrite Hf2. unfold decoded, bytes_decode_utf8.
    by rewrite utf8_decode_ascii.
Qed.

Lemma ascii_uploads_reach_the_prompt_witness :
  List.map req_messages (issued fresh (snd (@main scenario_env unit fresh)))
  = [ [ {| role := lit "user";
           content :=
             analysis_prompt
               (List.map Byte.to_N (getvalue helpful_prompt_file))
               (List.map Byte.to_N (getvalue greeting_log_file)) |} ] ].
Proof.
  apply (ascii_uploads_reach_the_prompt scenario_env fresh
           helpful_prompt_file greeting_log_file); reflexivity.
Defined.

(** X17: when every check passes, the one request of the run carries the
    typed key as it was typed and a prompt in which the decoded texts of the
    two files stand verbatim; [main] passes them on without trimming or
    otherwise changing them. *)
Theorem main_sends_typed_key_and_decoded_texts {R} (env : Env) (w : World)
    (system_prompt conversation_log : str) :
  clicked (user env) "Analyze System Prompt Influence" = true ->
  decoded (uploaded (user env) "Upload System Prompt Text File")
    = Some system_prompt ->
  decoded (uploaded (user env) "Upload Conversation Log Text File")
    = Some conversation_log ->
  str_truthy (typed (user env) "Enter Anthropic API Key") = true ->
  exists prompt : str,
    issued w (snd (@main env R w))
    = [ {| req_api_key := Some (typed (user env) "Enter Anthropic API Key");
           req_model := lit "claude-3-opus-20240229";
           req_max_tokens := 4000;
           req_messages := [ {| role := lit "user"; content := prompt |} ] |} ] /\
    verbatim_in system_prompt prompt /\
    verbatim_in conversation_log prompt.
Proof.
  intros Hp Hd1 Hd2 Hk. run_main.
  rewrite (main_effect_validated env _ system_prompt conversation_log Hp Hd1 Hd2 Hk).
  cbn [snd]. exists (analysis_prompt system_prompt conversation_log).
  split; [| split].
  - unfold analysis_request, __init__, or_getenv. cbn.
    by destruct (typed (user env) "Enter Anthropic API Key").
  - apply analysis_prompt_has_system_prompt.
  - apply analysis_prompt_has_conversation_log.
Qed.

Lemma main_sends_typed_key_and_decoded_texts_witness :
  exists prompt : str,
    issued fresh (snd (@main scenario_env unit fresh))
    = [ {| req_api_key := Some (typed (user scenario_env) "Enter Anthropic API Key");
           req_model := lit "claude-3-opus-20240229";
           req_max_tokens := 4000;
           req_messages := [ {| role := lit "user"; content := prompt |} ] |} ] /\
    verbatim_in (lit "You are a helpful assistant.") prompt /\
    verbatim_in (lit "User: Hi
Assistant: Hello! How can I help?") prompt.
Proof.
  apply (main_sends_typed_key_and_decoded_texts scenario_env fresh
           (lit "You are a helpful assistant.")
           (lit "User: Hi
Assistant: Hello! How can I help?")); vm_compute; reflexivity.
Defined.
